(** * ssd1306: command encoding and reset sequencing of the SSD1306 driver

    A shallow embedding of [ssd1306.go].  The driver owns three handles (a
    write-only bus device, the data/command select pin and the reset pin)
    and every method is a short sequence of calls through those handles.
    The embedding threads an explicit machine state, made of the state of
    the outside world and the log of calls the driver has issued, through
    a small state monad, so that both "what was returned" and "what was
    called, in which order" can be stated. *)

From Stdlib Require Import ZArith List String Lia Bool.
Import ListNotations.
Local Open Scope Z_scope.

(** ** Bytes

    Go's [byte] is an unsigned 8-bit integer.  It is a [Z] here; the only
    operation of the driver that can leave the range is the left shift,
    whose truncation is written out. *)

Definition byte := Z.

Definition is_byte (b : byte) : Prop := 0 <= b < 256.

(** [x << n] on bytes: the bits shifted past bit 7 are lost. *)
Definition byte_shl (x : byte) (n : Z) : byte := Z.land (Z.shiftl x n) 0xFF.

(** [x | y] on bytes. *)
Definition byte_or (x y : byte) : byte := Z.lor x y.

(** [x & y] on bytes (never used by the driver; needed to state masks). *)
Definition byte_and (x y : byte) : byte := Z.land x y.

(** [len(data)], a Go [int]. *)
Definition len (data : list byte) : Z := Z.of_nat (List.length data).

(** ** Enumerated settings (ssd1306.go, lines 17-66)

    Each is a named byte type with constants; a conversion [byte(x)] is the
    identity, and any byte value inhabits the type. *)

Definition ChargePumpSetting := byte.
Definition ChargePumpDisabled : ChargePumpSetting := 0x14.
Definition ChargePumpEnabled : ChargePumpSetting := 0x10.

Definition MemoryAddressingMode := byte.
Definition HorizontalAddressing : MemoryAddressingMode := 0.
Definition VerticalAddressing : MemoryAddressingMode := 1.
Definition PageAddressing : MemoryAddressingMode := 2.

Definition SegmentRemapMode := byte.
Definition Map0ToSeg0 : SegmentRemapMode := 0.
Definition Map127ToSeg0 : SegmentRemapMode := 1.

Definition ComOutputScanDirection := byte.
Definition ScanAscending : ComOutputScanDirection := 0xc0.
Definition ScanDescending : ComOutputScanDirection := 0xc8.

Definition VcomhDeselectLevel := byte.
Definition VccTimesPoint65 : VcomhDeselectLevel := 0x00.
Definition VccTimesPoint77 : VcomhDeselectLevel := 0x20.
Definition VccTimesPoint83 : VcomhDeselectLevel := 0x30.

Definition ComPinConfig := byte.
Definition SequentialComPinConfig : ComPinConfig := 0.
Definition AlternativeComPinConfig : ComPinConfig := 16.

Definition LeftRightRemap := byte.
Definition DisableComLeftRightRemap : LeftRightRemap := 0.
Definition EnableComLeftRightRemap : LeftRightRemap := 32.

(** ** Errors

    A Go [error] is either [nil] or a value; [option error] with [None] for
    [nil].  The driver builds one error itself, with [fmt.Errorf]; every
    other error value comes from a collaborator, which may return any. *)

Inductive error : Type :=
| fmt_Errorf (msg : string)
| ext_error (code : Z).

(** ** Collaborator interfaces

    The packages [gpio], [spi] and [time] are imported, not part of the
    driver.  A method of an interface value is a function on the state of
    the outside world [World]: it returns what the Go method returns and
    the world after the call.  Two handles may denote the same device, as
    they act on one shared world. *)

(** Modelled from the spec: the level of a digital output line
    ([set(level: HIGH|LOW)]); the declaration of [gpio.Value] is imported. *)
Inductive gpio_Value : Type := gpio_Low | gpio_High.

(** Modelled from the spec: a digital output line,
    [set(level: HIGH|LOW) -> error]; the interface [gpio.ValueSetter] is
    imported. *)
Record gpio_ValueSetter (World : Type) : Type := {
  SetValue : gpio_Value -> World -> option error * World
}.
Arguments SetValue {World} _ _ _.

(** Modelled from the spec: the bus sink,
    [write(bytes) -> (count_written, error)]; the interface
    [spi.WritableDevice] is imported. *)
Record spi_WritableDevice (World : Type) : Type := {
  Write : list byte -> World -> (Z * option error) * World
}.
Arguments Write {World} _ _ _.

(** [time.Microsecond], a [time.Duration] counted in nanoseconds. *)
Definition time_Microsecond : Z := 1000.

(** ** The machine and its monad *)

(** One entry per call the driver makes through one of its handles, or to
    [time.Sleep].  The entry names the field of [display] the call went
    through. *)
Inductive event : Type :=
| EvResetPin (v : gpio_Value)
| EvDcPin (v : gpio_Value)
| EvSpiWrite (data : list byte)
| EvSleep (d : Z).

Record machine (World : Type) : Type := {
  world : World;
  log : list event
}.
Arguments world {World} _.
Arguments log {World} _.

Definition M (World A : Type) : Type := machine World -> A * machine World.

Definition ret {World A : Type} (a : A) : M World A := fun m => (a, m).

Definition bind {World A B : Type} (c : M World A) (k : A -> M World B)
  : M World B :=
  fun m => let (a, m') := c m in k a m'.

Notation "x <- c ;; k" := (bind c (fun x => k))
  (at level 61, c at next level, right associativity).
Notation "' pat <- c ;; k" := (bind c (fun x => match x with pat => k end))
  (at level 61, pat pattern, c at next level, right associativity).

(** The calls made so far are kept, the new one is put at the end. *)
Definition record {World : Type} (e : event) (w : World) (m : machine World)
  : machine World :=
  {| world := w; log := log m ++ [e] |}.

(** The bytes handed to the bus sink, in order, in a piece of log. *)
Fixpoint written (l : list event) : list (list byte) :=
  match l with
  | [] => []
  | EvSpiWrite data :: l' => data :: written l'
  | _ :: l' => written l'
  end.

(** The five calls of a reset that meets no failure. *)
Definition reset_pulse : list event :=
  [EvResetPin gpio_High; EvSleep 3000;
   EvResetPin gpio_Low; EvSleep 3000;
   EvResetPin gpio_High].

Section Driver.

Context {World : Type}.

(** What the passing of [d] nanoseconds does to the outside world. *)
Variable elapse : Z -> World -> World.

(** [type display struct] (ssd1306.go, lines 91-95). *)
Record display : Type := {
  spi : spi_WritableDevice World;
  dcPin : gpio_ValueSetter World;
  resetPin : gpio_ValueSetter World
}.

(** [disp.resetPin.SetValue(v)] *)
Definition resetPin_SetValue (disp : display) (v : gpio_Value)
  : M World (option error) :=
  fun m => let (r, w) := SetValue (resetPin disp) v (world m) in
           (r, record (EvResetPin v) w m).

(** [disp.dcPin.SetValue(v)] *)
Definition dcPin_SetValue (disp : display) (v : gpio_Value)
  : M World (option error) :=
  fun m => let (r, w) := SetValue (dcPin disp) v (world m) in
           (r, record (EvDcPin v) w m).

(** [disp.spi.Write(data)] *)
Definition spi_Write (disp : display) (data : list byte)
  : M World (Z * option error) :=
  fun m => let (r, w) := Write (spi disp) data (world m) in
           (r, record (EvSpiWrite data) w m).

(** [time.Sleep(d)] *)
Definition time_Sleep (d : Z) : M World unit :=
  fun m => (tt, record (EvSleep d) (elapse d (world m)) m).

(** [NewDisplay] (lines 97-99). *)
Definition NewDisplay (spi : spi_WritableDevice World)
           (dcPin resetPin : gpio_ValueSetter World) : M World display :=
  ret {| spi := spi; dcPin := dcPin; resetPin := resetPin |}.

(** [Reset] (lines 101-118). *)
Definition Reset (disp : display) : M World (option error) :=
  err <- resetPin_SetValue disp gpio_High ;;
  match err with
  | Some _ => ret err
  | None =>
      _ <- time_Sleep (3 * time_Microsecond) ;;
      err <- resetPin_SetValue disp gpio_Low ;;
      match err with
      | Some _ => ret err
      | None =>
          _ <- time_Sleep (3 * time_Microsecond) ;;
          err <- resetPin_SetValue disp gpio_High ;;
          ret err
      end
  end.

(** [sendCommand] (lines 120-131).  The result of the first call is
    dropped, as in the source. *)
Definition sendCommand (disp : display) (data : list byte)
  : M World (option error) :=
  _ <- dcPin_SetValue disp gpio_Low ;;
  '(n, err) <- spi_Write disp data ;;
  match err with
  | Some _ => ret err
  | None =>
      if negb (n =? len data)
      then ret (Some (fmt_Errorf "Short write"%string))
      else ret None
  end.

(** The configuration methods (lines 133-208). *)

Definition Invert (disp : display) : M World (option error) :=
  sendCommand disp [0xA7].

Definition Uninvert (disp : display) : M World (option error) :=
  sendCommand disp [0xA6].

Definition TurnOff (disp : display) : M World (option error) :=
  sendCommand disp [0xAE].

Definition TurnOn (disp : display) : M World (option error) :=
  sendCommand disp [0xAF].

Definition SetChargePump (disp : display) (setting : ChargePumpSetting)
  : M World (option error) :=
  sendCommand disp [0x8D; setting].

Definition ConfigureClock (disp : display)
           (clkDivRatio oscFreqSetting : byte) : M World (option error) :=
  let packedValue := byte_or (byte_shl oscFreqSetting 4) clkDivRatio in
  sendCommand disp [0x8D; packedValue].

Definition ForceEntireDisplayOn (disp : display) : M World (option error) :=
  sendCommand disp [0xA4].

Definition StopForcingEntireDisplayOn (disp : display)
  : M World (option error) :=
  sendCommand disp [0xA5].

Definition SetComOutputScanDirection (disp : display)
           (direction : ComOutputScanDirection) : M World (option error) :=
  sendCommand disp [direction].

Definition ConfigureComPinsHardware (disp : display)
           (pinConfig : ComPinConfig) (leftRightRemap : LeftRightRemap)
  : M World (option error) :=
  let packedValue := byte_or (byte_or 2 pinConfig) leftRightRemap in
  sendCommand disp [0xDA; packedValue].

Definition SetContrast (disp : display) (contrast : byte)
  : M World (option error) :=
  sendCommand disp [0x81; contrast].

Definition SetOffset (disp : display) (offset : byte)
  : M World (option error) :=
  sendCommand disp [0xD3; offset].

Definition SetStartLine (disp : display) (startLine : byte)
  : M World (option error) :=
  let packedValue := byte_or 0x40 startLine in
  sendCommand disp [packedValue].

Definition SetMemoryAddressingMode (disp : display)
           (mode : MemoryAddressingMode) : M World (option error) :=
  sendCommand disp [0x20; mode].

Definition SetMultiplexRatio (disp : display) (ratio : byte)
  : M World (option error) :=
  sendCommand disp [0xA8; ratio].

Definition SetPrechargePeriod (disp : display)
           (phase1Ticks phase2Ticks : byte) : M World (option error) :=
  let packedValue := byte_or (byte_shl phase2Ticks 4) phase1Ticks in
  sendCommand disp [0xD9; packedValue].

Definition SetSegmentRemap (disp : display) (mode : SegmentRemapMode)
  : M World (option error) :=
  let packedValue := byte_or 0xA0 mode in
  sendCommand disp [packedValue].

Definition SetVcomhDeselectLevel (disp : display)
           (level : VcomhDeselectLevel) : M World (option error) :=
  sendCommand disp [0xDB; level].

End Driver.

Arguments display : clear implicits.

(** ** The calls offered by the [Display] interface (lines 68-89) *)

(** The eighteen configuration methods, with their arguments. *)
Inductive ConfigCall : Type :=
| CallInvert
| CallUninvert
| CallTurnOn
| CallTurnOff
| CallSetChargePump (setting : ChargePumpSetting)
| CallConfigureClock (clkDivRatio oscFreqSetting : byte)
| CallConfigureComPinsHardware (pinConfig : ComPinConfig)
                               (leftRightRemap : LeftRightRemap)
| CallSetMultiplexRatio (ratio : byte)
| CallSetOffset (offset : byte)
| CallSetStartLine (startLine : byte)
| CallSetMemoryAddressingMode (mode : MemoryAddressingMode)
| CallSetSegmentRemap (mode : SegmentRemapMode)
| CallSetComOutputScanDirection (direction : ComOutputScanDirection)
| CallSetContrast (contrast : byte)
| CallSetPrechargePeriod (phase1Ticks phase2Ticks : byte)
| CallSetVcomhDeselectLevel (level : VcomhDeselectLevel)
| CallForceEntireDisplayOn
| CallStopForcingEntireDisplayOn.

Inductive Call : Type :=
| CallReset
| CallConfig (c : ConfigCall).

Section Clients.

Context {World : Type}.
Variable elapse : Z -> World -> World.

(** Method dispatch on a configuration call. *)
Definition configure (disp : display World) (c : ConfigCall)
  : M World (option error) :=
  match c with
  | CallInvert => Invert disp
  | CallUninvert => Uninvert disp
  | CallTurnOn => TurnOn disp
  | CallTurnOff => TurnOff disp
  | CallSetChargePump setting => SetChargePump disp setting
  | CallConfigureClock d f => ConfigureClock disp d f
  | CallConfigureComPinsHardware p r => ConfigureComPinsHardware disp p r
  | CallSetMultiplexRatio ratio => SetMultiplexRatio disp ratio
  | CallSetOffset offset => SetOffset disp offset
  | CallSetStartLine startLine => SetStartLine disp startLine
  | CallSetMemoryAddressingMode mode => SetMemoryAddressingMode disp mode
  | CallSetSegmentRemap mode => SetSegmentRemap disp mode
  | CallSetComOutputScanDirection dir => SetComOutputScanDirection disp dir
  | CallSetContrast contrast => SetContrast disp contrast
  | CallSetPrechargePeriod p1 p2 => SetPrechargePeriod disp p1 p2
  | CallSetVcomhDeselectLevel level => SetVcomhDeselectLevel disp level
  | CallForceEntireDisplayOn => ForceEntireDisplayOn disp
  | CallStopForcingEntireDisplayOn => StopForcingEntireDisplayOn disp
  end.

(** Method dispatch on any call. *)
Definition invoke (disp : display World) (c : Call)
  : M World (option error) :=
  match c with
  | CallReset => Reset elapse disp
  | CallConfig c => configure disp c
  end.

(** A client that makes the calls of [cs] one after the other, whatever
    each returns, and collects the results. *)
Fixpoint session (disp : display World) (cs : list Call)
  : M World (list (option error)) :=
  match cs with
  | [] => ret []
  | c :: cs' =>
      r <- invoke disp c ;;
      rs <- session disp cs' ;;
      ret (r :: rs)
  end.

End Clients.

(** ** In-memory collaborators

    Fakes in the manner of a test double.  Their world is the number of
    calls the pins have received so far. *)

Module Fake.

Definition okPin : gpio_ValueSetter nat :=
  {| SetValue := fun _ w => (None, S w) |}.

(** A pin whose every call fails with [e]. *)
Definition deadPin (e : error) : gpio_ValueSetter nat :=
  {| SetValue := fun _ w => (Some e, S w) |}.

(** A pin whose call number [k] (from 0) is the only one that fails. *)
Definition pinFailingAt (k : nat) (e : error) : gpio_ValueSetter nat :=
  {| SetValue := fun _ w => (if Nat.eqb w k then Some e else None, S w) |}.

(** A bus that accepts everything. *)
Definition okBus : spi_WritableDevice nat :=
  {| Write := fun data w => ((len data, None), w) |}.

(** A bus that accepts all bytes but the last and reports no error. *)
Definition shortBus : spi_WritableDevice nat :=
  {| Write := fun data w => ((len data - 1, None), w) |}.

Definition noElapse : Z -> nat -> nat := fun _ w => w.

Definition boot : machine nat := {| world := 0%nat; log := [] |}.

Definition okDisplay : display nat :=
  {| spi := okBus; dcPin := okPin; resetPin := okPin |}.

(** The select line is out of order; bus and reset line work. *)
Definition deadSelectDisplay (e : error) : display nat :=
  {| spi := okBus; dcPin := deadPin e; resetPin := okPin |}.

(** The reset line fails on its second call only. *)
Definition flakyResetDisplay (e : error) : display nat :=
  {| spi := okBus; dcPin := okPin; resetPin := pinFailingAt 1 e |}.

(** The bus drops the last byte of every write. *)
Definition shortDisplay : display nat :=
  {| spi := shortBus; dcPin := okPin; resetPin := okPin |}.

End Fake.

(** ** The earlier revision of the driver

    The second source file is an earlier state of [ssd1306.go]: the same
    [display] struct, [NewDisplay], [Reset] and [sendCommand], methods with
    value receivers, and four commands under other names. *)

Module Rev0.
Section Rev0Driver.

Context {World : Type}.
Variable elapse : Z -> World -> World.

Definition NewDisplay (spi : spi_WritableDevice World)
           (dcPin resetPin : gpio_ValueSetter World)
  : M World (display World) :=
  ret {| spi := spi; dcPin := dcPin; resetPin := resetPin |}.

Definition Reset (disp : display World) : M World (option error) :=
  err <- resetPin_SetValue disp gpio_High ;;
  match err with
  | Some _ => ret err
  | None =>
      _ <- time_Sleep elapse (3 * time_Microsecond) ;;
      err <- resetPin_SetValue disp gpio_Low ;;
      match err with
      | Some _ => ret err
      | None =>
          _ <- time_Sleep elapse (3 * time_Microsecond) ;;
          err <- resetPin_SetValue disp gpio_High ;;
          ret err
      end
  end.

Definition sendCommand (disp : display World) (data : list byte)
  : M World (option error) :=
  _ <- dcPin_SetValue disp gpio_Low ;;
  '(n, err) <- spi_Write disp data ;;
  match err with
  | Some _ => ret err
  | None =>
      if negb (n =? len data)
      then ret (Some (fmt_Errorf "Short write"%string))
      else ret None
  end.

Definition InvertDisplay (disp : display World) : M World (option error) :=
  sendCommand disp [0xA7].

Definition NormalDisplay (disp : display World) : M World (option error) :=
  sendCommand disp [0xA6].

Definition DisplayOff (disp : display World) : M World (option error) :=
  sendCommand disp [0xAE].

Definition DisplayOn (disp : display World) : M World (option error) :=
  sendCommand disp [0xAF].

End Rev0Driver.
End Rev0.

(** ** Vocabulary for statements about calls *)

(** More buses for the fakes. *)
Module FakeBus.

(** A bus that reports the error [e] together with a full count. *)
Definition failingBus (e : error) : spi_WritableDevice nat :=
  {| Write := fun data w => ((len data, Some e), w) |}.

(** A bus that reports one byte more than it was given, and no error. *)
Definition greedyBus : spi_WritableDevice nat :=
  {| Write := fun data w => ((len data + 1, None), w) |}.

Definition failingDisplay (e : error) : display nat :=
  {| spi := failingBus e; dcPin := Fake.okPin; resetPin := Fake.okPin |}.

Definition greedyDisplay : display nat :=
  {| spi := greedyBus; dcPin := Fake.okPin; resetPin := Fake.okPin |}.

End FakeBus.

(** The command of a configuration call: the bytes the call hands to the
    bus when it is run on the recording fake.  That every display is handed
    the same bytes is [configure_sends_command_of] below. *)
Definition command_of (c : ConfigCall) : list byte :=
  List.concat (written (log (snd (configure Fake.okDisplay c Fake.boot)))).

(** The Go method behind a configuration call. *)
Definition method_of (c : ConfigCall) : string :=
  match c with
  | CallInvert => "Invert"
  | CallUninvert => "Uninvert"
  | CallTurnOn => "TurnOn"
  | CallTurnOff => "TurnOff"
  | CallSetChargePump _ => "SetChargePump"
  | CallConfigureClock _ _ => "ConfigureClock"
  | CallConfigureComPinsHardware _ _ => "ConfigureComPinsHardware"
  | CallSetMultiplexRatio _ => "SetMultiplexRatio"
  | CallSetOffset _ => "SetOffset"
  | CallSetStartLine _ => "SetStartLine"
  | CallSetMemoryAddressingMode _ => "SetMemoryAddressingMode"
  | CallSetSegmentRemap _ => "SetSegmentRemap"
  | CallSetComOutputScanDirection _ => "SetComOutputScanDirection"
  | CallSetContrast _ => "SetContrast"
  | CallSetPrechargePeriod _ _ => "SetPrechargePeriod"
  | CallSetVcomhDeselectLevel _ => "SetVcomhDeselectLevel"
  | CallForceEntireDisplayOn => "ForceEntireDisplayOn"
  | CallStopForcingEntireDisplayOn => "StopForcingEntireDisplayOn"
  end%string.

(** Go's typing of a call: every argument is a byte (all the parameter
    types of the methods are [byte] or a named byte type). *)
Definition byte_args (c : ConfigCall) : Prop :=
  match c with
  | CallSetChargePump x | CallSetMultiplexRatio x | CallSetOffset x
  | CallSetStartLine x | CallSetMemoryAddressingMode x
  | CallSetSegmentRemap x | CallSetComOutputScanDirection x
  | CallSetContrast x | CallSetVcomhDeselectLevel x => is_byte x
  | CallConfigureClock x y | CallConfigureComPinsHardware x y
  | CallSetPrechargePeriod x y => is_byte x /\ is_byte y
  | _ => True
  end.

(** The arguments of the three single-byte commands that take one are
    kept to what the command byte has room for: a declared constant for the
    two enumerated ones, six bits for the start line. *)
Definition fitting_args (c : ConfigCall) : Prop :=
  match c with
  | CallSetSegmentRemap mode => mode = Map0ToSeg0 \/ mode = Map127ToSeg0
  | CallSetComOutputScanDirection direction =>
      direction = ScanAscending \/ direction = ScanDescending
  | CallSetStartLine startLine => 0 <= startLine <= 0x3F
  | _ => True
  end.

(** The configuration calls of a sequence of calls, in order. *)
Fixpoint config_calls (cs : list Call) : list ConfigCall :=
  match cs with
  | [] => []
  | CallReset :: cs' => config_calls cs'
  | CallConfig c :: cs' => c :: config_calls cs'
  end.

(** All 256 bytes, for properties settled by running through them. *)
Definition all_bytes : list byte := map Z.of_nat (seq 0 256).

(** ** Bit-level facts about bytes *)

Lemma byte_shl_is_byte (x n : Z) : is_byte (byte_shl x n).
Proof.
  unfold is_byte, byte_shl.
  change 0xFF with (Z.ones 8).
  rewrite Z.land_ones by lia.
  apply Z.mod_pos_bound; reflexivity.
Qed.

Lemma is_byte_land_ones (x : Z) : is_byte x <-> Z.land x (Z.ones 8) = x.
Proof.
  unfold is_byte. rewrite Z.land_ones by lia. split; intro H.
  - apply Z.mod_small; exact H.
  - rewrite <- H. apply Z.mod_pos_bound; reflexivity.
Qed.

Lemma byte_or_is_byte (x y : byte) :
  is_byte x -> is_byte y -> is_byte (byte_or x y).
Proof.
  rewrite !is_byte_land_ones. intros Hx Hy.
  unfold byte_or. rewrite Z.land_lor_distr_l. congruence.
Qed.

(** Masking to the low [k] bits changes nothing below [2^k]. *)
Lemma byte_and_low (x k : Z) :
  0 <= k -> 0 <= x < 2 ^ k -> byte_and x (Z.ones k) = x.
Proof.
  intros Hk Hx. unfold byte_and.
  rewrite Z.land_ones by exact Hk. apply Z.mod_small; exact Hx.
Qed.

(** ** What one command transmission does *)

Section Transmission.

Context {World : Type}.
Implicit Types (disp : display World) (m : machine World).

(** The whole of [sendCommand] in one equation: one call on the select
    line, one write, and the result computed from what the write
    returned alone. *)
Lemma sendCommand_run disp data m :
  sendCommand disp data m =
  (match snd (fst (Write (spi disp) data
                     (snd (SetValue (dcPin disp) gpio_Low (world m))))) with
   | Some e => Some e
   | None =>
       if fst (fst (Write (spi disp) data
                      (snd (SetValue (dcPin disp) gpio_Low (world m)))))
          =? len data
       then None
       else Some (fmt_Errorf "Short write")
   end,
   {| world := snd (Write (spi disp) data
                      (snd (SetValue (dcPin disp) gpio_Low (world m))));
      log := log m ++ [EvDcPin gpio_Low; EvSpiWrite data] |}).
Proof.
  unfold sendCommand, bind, dcPin_SetValue, spi_Write, record, ret.
  destruct (SetValue (dcPin disp) gpio_Low (world m)) as [r0 w1].
  cbn [snd fst world log].
  destruct (Write (spi disp) data w1) as [[n err] w2].
  cbn [snd fst].
  rewrite <- app_assoc. cbn [app].
  destruct err as [e|]; [reflexivity|].
  destruct (n =? len data); reflexivity.
Qed.

Lemma sendCommand_log disp data m :
  log (snd (sendCommand disp data m)) =
  log m ++ [EvDcPin gpio_Low; EvSpiWrite data].
Proof. rewrite sendCommand_run. reflexivity. Qed.

End Transmission.

(** ** Command encodings *)

Section Encodings.

Context {World : Type}.
Implicit Types (disp : display World) (m : machine World).

(** C1 (as amended).  For all bytes [d] and [f], [ConfigureClock(d, f)]
    hands exactly one two-byte command to the bus, after driving the
    select line low: the opcode 0x8D, then the byte [(f << 4) | d], where
    the shift is truncated to eight bits and [d] is not masked.  When
    [d <= 0xF] the second byte is [(f << 4) | (d & 0xF)]; and
    [ConfigureClock(0x3, 0x8)] has 0x83 as its second byte. *)
Theorem ConfigureClock_transmits disp m (d f : byte) :
  is_byte d -> is_byte f ->
  log (snd (ConfigureClock disp d f m)) =
    log m ++ [EvDcPin gpio_Low;
              EvSpiWrite [0x8D; byte_or (byte_shl f 4) d]]
  /\ is_byte (byte_or (byte_shl f 4) d)
  /\ (d <= 0xF ->
      byte_or (byte_shl f 4) d = byte_or (byte_shl f 4) (byte_and d 0xF))
  /\ log (snd (ConfigureClock disp 0x3 0x8 m)) =
       log m ++ [EvDcPin gpio_Low; EvSpiWrite [0x8D; 0x83]].
Proof.
  intros Hd Hf. unfold ConfigureClock.
  split; [apply sendCommand_log|].
  split; [|split; [|apply sendCommand_log]].
  - apply byte_or_is_byte; [apply byte_shl_is_byte | exact Hd].
  - intro Hlow. change 0xF with (Z.ones 4).
    rewrite byte_and_low; [reflexivity | lia |].
    unfold is_byte in Hd. change (2 ^ 4) with 16. lia.
Qed.

(** C2.  [ConfigureClock] and [SetChargePump] both start their command
    with 0x8D, whatever their arguments; and when the charge-pump
    setting [s] is the byte [(f << 4) | d], the run of
    [ConfigureClock(d, f)] is the run of [SetChargePump(s)]: same calls,
    same two bytes written, same result. *)
Theorem ConfigureClock_same_as_SetChargePump disp m (d f : byte)
        (s : ChargePumpSetting) :
  s = byte_or (byte_shl f 4) d ->
  (forall s' : ChargePumpSetting, exists b b' : byte,
      log (snd (ConfigureClock disp d f m)) =
        log m ++ [EvDcPin gpio_Low; EvSpiWrite [0x8D; b]]
      /\ log (snd (SetChargePump disp s' m)) =
           log m ++ [EvDcPin gpio_Low; EvSpiWrite [0x8D; b']])
  /\ written (log (snd (ConfigureClock disp d f m))) =
     written (log (snd (SetChargePump disp s m)))
  /\ ConfigureClock disp d f m = SetChargePump disp s m.
Proof.
  intros ->. split; [|split; reflexivity].
  intro s'. exists (byte_or (byte_shl f 4) d), s'.
  split; apply sendCommand_log.
Qed.

(** C4 (as amended).  For every byte [n], [SetStartLine(n)] hands exactly
    one one-byte command to the bus: the byte [0x40 | n], with [n] not
    masked.  When [n <= 0x3F] that byte is [0x40 | (n & 0x3F)]; and
    [SetStartLine(5)] transmits 0x45. *)
Theorem SetStartLine_transmits disp m (n : byte) :
  is_byte n ->
  log (snd (SetStartLine disp n m)) =
    log m ++ [EvDcPin gpio_Low; EvSpiWrite [byte_or 0x40 n]]
  /\ is_byte (byte_or 0x40 n)
  /\ (n <= 0x3F -> byte_or 0x40 n = byte_or 0x40 (byte_and n 0x3F))
  /\ log (snd (SetStartLine disp 5 m)) =
       log m ++ [EvDcPin gpio_Low; EvSpiWrite [0x45]].
Proof.
  intros Hn. unfold SetStartLine.
  split; [apply sendCommand_log|].
  split; [|split; [|apply sendCommand_log]].
  - apply byte_or_is_byte; [unfold is_byte; lia | exact Hn].
  - intro Hlow. change 0x3F with (Z.ones 6).
    rewrite byte_and_low; [reflexivity | lia |].
    unfold is_byte in Hn. change (2 ^ 6) with 64. lia.
Qed.

(** C5 (as amended).  For all bytes [p1] and [p2],
    [SetPrechargePeriod(p1, p2)] hands exactly one two-byte command to
    the bus: the opcode 0xD9, then the byte [(p2 << 4) | p1], where the
    shift is truncated to eight bits and [p1] is not masked.  When
    [p1 <= 0xF] the second byte is [(p2 << 4) | (p1 & 0xF)]; and
    [SetPrechargePeriod(2, 15)] has 0xF2 as its second byte. *)
Theorem SetPrechargePeriod_transmits disp m (p1 p2 : byte) :
  is_byte p1 -> is_byte p2 ->
  log (snd (SetPrechargePeriod disp p1 p2 m)) =
    log m ++ [EvDcPin gpio_Low;
              EvSpiWrite [0xD9; byte_or (byte_shl p2 4) p1]]
  /\ is_byte (byte_or (byte_shl p2 4) p1)
  /\ (p1 <= 0xF ->
      byte_or (byte_shl p2 4) p1
      = byte_or (byte_shl p2 4) (byte_and p1 0xF))
  /\ log (snd (SetPrechargePeriod disp 2 15 m)) =
       log m ++ [EvDcPin gpio_Low; EvSpiWrite [0xD9; 0xF2]].
Proof.
  intros H1 H2. unfold SetPrechargePeriod.
  split; [apply sendCommand_log|].
  split; [|split; [|apply sendCommand_log]].
  - apply byte_or_is_byte; [apply byte_shl_is_byte | exact H1].
  - intro Hlow. change 0xF with (Z.ones 4).
    rewrite byte_and_low; [reflexivity | lia |].
    unfold is_byte in H1. change (2 ^ 4) with 16. lia.
Qed.

(** C9.  [SetSegmentRemap(mode)] hands exactly one one-byte command to
    the bus, the byte [0xA0 | mode]: 0xA1 for [Map127ToSeg0] and 0xA0
    for [Map0ToSeg0]. *)
Theorem SetSegmentRemap_transmits disp m :
  (forall mode : SegmentRemapMode,
      log (snd (SetSegmentRemap disp mode m)) =
        log m ++ [EvDcPin gpio_Low; EvSpiWrite [byte_or 0xA0 mode]])
  /\ log (snd (SetSegmentRemap disp Map127ToSeg0 m)) =
       log m ++ [EvDcPin gpio_Low; EvSpiWrite [0xA1]]
  /\ log (snd (SetSegmentRemap disp Map0ToSeg0 m)) =
       log m ++ [EvDcPin gpio_Low; EvSpiWrite [0xA0]].
Proof.
  repeat split; intros; unfold SetSegmentRemap; apply sendCommand_log.
Qed.

End Encodings.

(** ** Construction and reset *)

Section Lifecycle.

Context {World : Type}.
Variable elapse : Z -> World -> World.
Implicit Types (disp : display World) (m : machine World).

(** C10.  [NewDisplay] makes no call: the world and the log of calls are
    left as they were, and the value returned holds the three handles it
    was given. *)
Theorem NewDisplay_no_io (s : spi_WritableDevice World)
        (d r : gpio_ValueSetter World) m :
  snd (NewDisplay s d r m) = m
  /\ log (snd (NewDisplay s d r m)) = log m
  /\ spi (fst (NewDisplay s d r m)) = s
  /\ dcPin (fst (NewDisplay s d r m)) = d
  /\ resetPin (fst (NewDisplay s d r m)) = r.
Proof. repeat split. Qed.

(** [Reset] by cases on what the reset line answers. *)
Lemma Reset_first_fails disp m e w1 :
  SetValue (resetPin disp) gpio_High (world m) = (Some e, w1) ->
  Reset elapse disp m =
    (Some e, {| world := w1; log := log m ++ firstn 1 reset_pulse |}).
Proof.
  intro H1. unfold Reset, bind, resetPin_SetValue, record, ret.
  rewrite H1. reflexivity.
Qed.

Lemma Reset_second_fails disp m e w1 w2 :
  SetValue (resetPin disp) gpio_High (world m) = (None, w1) ->
  SetValue (resetPin disp) gpio_Low (elapse 3000 w1) = (Some e, w2) ->
  Reset elapse disp m =
    (Some e, {| world := w2; log := log m ++ firstn 3 reset_pulse |}).
Proof.
  intros H1 H2.
  unfold Reset, bind, resetPin_SetValue, time_Sleep, record, ret.
  rewrite H1. cbn [world log]. change (3 * time_Microsecond) with 3000.
  rewrite H2. rewrite <- !app_assoc. reflexivity.
Qed.

Lemma Reset_reaches_third disp m w1 w2 r3 w3 :
  SetValue (resetPin disp) gpio_High (world m) = (None, w1) ->
  SetValue (resetPin disp) gpio_Low (elapse 3000 w1) = (None, w2) ->
  SetValue (resetPin disp) gpio_High (elapse 3000 w2) = (r3, w3) ->
  Reset elapse disp m =
    (r3, {| world := w3; log := log m ++ reset_pulse |}).
Proof.
  intros H1 H2 H3.
  unfold Reset, bind, resetPin_SetValue, time_Sleep, record, ret.
  rewrite H1. cbn [world log]. change (3 * time_Microsecond) with 3000.
  rewrite H2. cbn [world log]. rewrite H3.
  rewrite <- !app_assoc. reflexivity.
Qed.

(** C6.  [Reset] sets the reset line high, sleeps 3 microseconds, sets it
    low, sleeps 3 microseconds and sets it high, and returns what the
    third set returned.  If the second set fails, the log ends with that
    second set (no second sleep, no third set) and the error returned is
    the one of the second set.  If the first set fails, the log ends with
    it and its error is returned. *)
Theorem Reset_sequence disp m :
  (forall w1 w2 r3 w3,
      SetValue (resetPin disp) gpio_High (world m) = (None, w1) ->
      SetValue (resetPin disp) gpio_Low (elapse 3000 w1) = (None, w2) ->
      SetValue (resetPin disp) gpio_High (elapse 3000 w2) = (r3, w3) ->
      Reset elapse disp m =
        (r3, {| world := w3;
                log := log m ++ [EvResetPin gpio_High; EvSleep 3000;
                                 EvResetPin gpio_Low; EvSleep 3000;
                                 EvResetPin gpio_High] |}))
  /\ (forall w1 e w2,
      SetValue (resetPin disp) gpio_High (world m) = (None, w1) ->
      SetValue (resetPin disp) gpio_Low (elapse 3000 w1) = (Some e, w2) ->
      Reset elapse disp m =
        (Some e, {| world := w2;
                    log := log m ++ [EvResetPin gpio_High; EvSleep 3000;
                                     EvResetPin gpio_Low] |}))
  /\ (forall e w1,
      SetValue (resetPin disp) gpio_High (world m) = (Some e, w1) ->
      Reset elapse disp m =
        (Some e, {| world := w1;
                    log := log m ++ [EvResetPin gpio_High] |})).
Proof.
  split; [|split].
  - intros w1 w2 r3 w3. apply Reset_reaches_third.
  - intros w1 e w2. apply Reset_second_fails.
  - intros e w1. apply Reset_first_fails.
Qed.

(** Whatever the reset line answers, a reset issues a prefix of the
    five-call pulse. *)
Lemma Reset_log disp m :
  exists k : nat,
    log (snd (Reset elapse disp m)) = log m ++ firstn k reset_pulse.
Proof.
  destruct (SetValue (resetPin disp) gpio_High (world m))
    as [[e1|] w1] eqn:H1.
  - exists 1%nat. rewrite (Reset_first_fails _ _ _ _ H1). reflexivity.
  - destruct (SetValue (resetPin disp) gpio_Low (elapse 3000 w1))
      as [[e2|] w2] eqn:H2.
    + exists 3%nat. rewrite (Reset_second_fails _ _ _ _ _ H1 H2).
      reflexivity.
    + destruct (SetValue (resetPin disp) gpio_High (elapse 3000 w2))
        as [r3 w3] eqn:H3.
      exists 5%nat. rewrite (Reset_reaches_third _ _ _ _ _ _ H1 H2 H3).
      reflexivity.
Qed.

End Lifecycle.

(** ** Transmission of configuration commands *)

Lemma In_firstn {A : Type} (x : A) (k : nat) (l : list A) :
  In x (firstn k l) -> In x l.
Proof.
  revert l. induction k as [|k IH]; intros [|y l] H; cbn in H;
    try contradiction.
  destruct H as [H|H]; [left; exact H | right; apply IH; exact H].
Qed.

Section Commands.

Context {World : Type}.
Variable elapse : Z -> World -> World.
Implicit Types (disp : display World) (m : machine World).

(** Every configuration method is one [sendCommand]. *)
Lemma configure_sends disp (c : ConfigCall) :
  exists data : list byte, configure disp c = sendCommand disp data.
Proof. destruct c; eexists; reflexivity. Qed.

(** An error of the bus write is returned as it is. *)
Lemma sendCommand_write_error disp data m n e w2 :
  Write (spi disp) data (snd (SetValue (dcPin disp) gpio_Low (world m)))
    = ((n, Some e), w2) ->
  fst (sendCommand disp data m) = Some e.
Proof. intro H. rewrite sendCommand_run, H. reflexivity. Qed.

(** A count other than the length, with no error, is a short write. *)
Lemma sendCommand_count_mismatch disp data m n w2 :
  Write (spi disp) data (snd (SetValue (dcPin disp) gpio_Low (world m)))
    = ((n, None), w2) ->
  n <> len data ->
  fst (sendCommand disp data m) = Some (fmt_Errorf "Short write").
Proof.
  intros H Hn. rewrite sendCommand_run, H. cbn [fst snd].
  destruct (Z.eqb_spec n (len data)) as [Heq|_]; [contradiction|].
  reflexivity.
Qed.

Lemma sendCommand_full_write disp data m w2 :
  Write (spi disp) data (snd (SetValue (dcPin disp) gpio_Low (world m)))
    = ((len data, None), w2) ->
  fst (sendCommand disp data m) = None.
Proof.
  intro H. rewrite sendCommand_run, H. cbn [fst snd].
  rewrite Z.eqb_refl. reflexivity.
Qed.

(** C7.  A configuration call [c] makes exactly two calls: the select
    line is set low and one command [data] is written to the bus.  If
    that write reports no error and a count below [len data], the call
    returns the error "Short write" (and has made no other write); if it
    reports no error and the count [len data], the call returns [nil]. *)
Theorem short_write_detected disp (c : ConfigCall) m :
  exists data : list byte,
    log (snd (configure disp c m)) =
      log m ++ [EvDcPin gpio_Low; EvSpiWrite data]
    /\ written (log (snd (configure disp c m))) =
         written (log m) ++ [data]
    /\ forall n w2,
        Write (spi disp) data
          (snd (SetValue (dcPin disp) gpio_Low (world m)))
          = ((n, None), w2) ->
        (n < len data ->
         fst (configure disp c m) = Some (fmt_Errorf "Short write"))
        /\ (n = len data -> fst (configure disp c m) = None).
Proof.
  destruct (configure_sends disp c) as [data ->].
  exists data. split; [apply sendCommand_log|]. split.
  - rewrite sendCommand_log.
    induction (log m) as [|[] l IH]; cbn [app written];
      rewrite ?IH; reflexivity.
  - intros n w2 H. split.
    + intro Hlt. apply (sendCommand_count_mismatch _ _ _ _ _ H). lia.
    + intros ->. apply (sendCommand_full_write _ _ _ _ H).
Qed.

(** No call sets the select line high. *)
Lemma invoke_log disp (c : Call) m :
  exists ext : list event,
    log (snd (invoke elapse disp c m)) = log m ++ ext
    /\ ~ In (EvDcPin gpio_High) ext.
Proof.
  destruct c as [|c]; cbn [invoke].
  - destruct (Reset_log elapse disp m) as [k Hk].
    exists (firstn k reset_pulse). split; [exact Hk|].
    intro Hin. apply In_firstn in Hin. cbn in Hin.
    repeat (destruct Hin as [Hin|Hin]; [discriminate|]). exact Hin.
  - destruct (configure_sends disp c) as [data ->].
    exists [EvDcPin gpio_Low; EvSpiWrite data].
    split; [apply sendCommand_log|].
    cbn. intros [H|[H|[]]]; discriminate.
Qed.

Lemma session_log disp (cs : list Call) :
  forall m, exists ext : list event,
    log (snd (session elapse disp cs m)) = log m ++ ext
    /\ ~ In (EvDcPin gpio_High) ext.
Proof.
  induction cs as [|c cs IH]; intro m.
  - exists []. cbn. rewrite app_nil_r. auto.
  - cbn [session]. unfold bind at 1.
    destruct (invoke_log disp c m) as [ext1 [H1 N1]].
    destruct (invoke elapse disp c m) as [r m1]. cbn [snd] in H1.
    unfold bind at 1.
    destruct (IH m1) as [ext2 [H2 N2]].
    destruct (session elapse disp cs m1) as [rs m2]. cbn [snd] in H2.
    exists (ext1 ++ ext2). cbn [ret snd]. split.
    + rewrite H2, H1, app_assoc. reflexivity.
    + intro Hin. apply in_app_or in Hin. tauto.
Qed.

(** C8.  In a configuration call the select line is set low and then the
    command is written, and these are its only calls; and over any
    sequence of calls to the driver (configuration calls and resets, in
    any order and whatever they return) no call sets the select line
    high. *)
Theorem select_line_left_at_command disp :
  (forall (c : ConfigCall) m, exists data : list byte,
      log (snd (configure disp c m)) =
        log m ++ [EvDcPin gpio_Low; EvSpiWrite data])
  /\ (forall (cs : list Call) m, exists ext : list event,
         log (snd (session elapse disp cs m)) = log m ++ ext
         /\ ~ In (EvDcPin gpio_High) ext).
Proof.
  split.
  - intros c m. destruct (configure_sends disp c) as [data ->].
    exists data. apply sendCommand_log.
  - intros cs m. apply session_log.
Qed.

End Commands.

(** ** The earlier revision agrees with the current one *)

Lemma Rev0_agrees {World : Type} (elapse : Z -> World -> World)
      (disp : display World) :
  Rev0.Reset elapse disp = Reset elapse disp
  /\ (forall data, Rev0.sendCommand disp data = sendCommand disp data)
  /\ Rev0.InvertDisplay disp = Invert disp
  /\ Rev0.NormalDisplay disp = Uninvert disp
  /\ Rev0.DisplayOff disp = TurnOff disp
  /\ Rev0.DisplayOn disp = TurnOn disp.
Proof. repeat split. Qed.

(** ** Runs on the in-memory collaborators *)

(** C3.  The select line reports an error when [Invert] sets it low, the
    bus accepts the command byte, and [Invert] returns [nil]: the error of
    the select line is lost. *)
Theorem select_line_error_is_dropped :
  SetValue (dcPin (Fake.deadSelectDisplay (ext_error 13))) gpio_Low
           (world Fake.boot)
    = (Some (ext_error 13), 1%nat)
  /\ Invert (Fake.deadSelectDisplay (ext_error 13)) Fake.boot
     = (None, {| world := 1%nat;
                 log := [EvDcPin gpio_Low; EvSpiWrite [0xA7]] |}).
Proof. split; reflexivity. Qed.

(** [ConfigureClock(0x10, 0)] writes 0x10 as its second byte, where the
    masked formula gives 0x00. *)
Lemma ConfigureClock_mask_counterexample :
  is_byte 0x10 /\ is_byte 0x0
  /\ written (log (snd (ConfigureClock Fake.okDisplay 0x10 0x0 Fake.boot)))
     = [[0x8D; 0x10]]
  /\ ~ (exists opcode : byte,
         written (log (snd (ConfigureClock Fake.okDisplay 0x10 0x0
                                           Fake.boot)))
         = [[opcode; byte_or (byte_shl 0x0 4) (byte_and 0x10 0xF)]]).
Proof.
  split; [unfold is_byte; lia|]. split; [unfold is_byte; lia|].
  split; [reflexivity|].
  intros [opcode H]. cbv in H. discriminate H.
Qed.

(** [SetStartLine(0x80)] writes 0xC0, where the masked formula gives
    0x40. *)
Lemma SetStartLine_mask_counterexample :
  is_byte 0x80
  /\ written (log (snd (SetStartLine Fake.okDisplay 0x80 Fake.boot)))
     = [[0xC0]]
  /\ written (log (snd (SetStartLine Fake.okDisplay 0x80 Fake.boot)))
     <> [[byte_or 0x40 (byte_and 0x80 0x3F)]].
Proof.
  split; [unfold is_byte; lia|]. split; [reflexivity|].
  intro H. cbv in H. discriminate H.
Qed.

(** [SetPrechargePeriod(0x10, 0)] writes 0x10 as its second byte, where
    the masked formula gives 0x00. *)
Lemma SetPrechargePeriod_mask_counterexample :
  is_byte 0x10 /\ is_byte 0x0
  /\ written (log (snd (SetPrechargePeriod Fake.okDisplay 0x10 0x0
                                           Fake.boot)))
     = [[0xD9; 0x10]]
  /\ ~ (exists opcode : byte,
         written (log (snd (SetPrechargePeriod Fake.okDisplay 0x10 0x0
                                               Fake.boot)))
         = [[opcode; byte_or (byte_shl 0x0 4) (byte_and 0x10 0xF)]]).
Proof.
  split; [unfold is_byte; lia|]. split; [unfold is_byte; lia|].
  split; [reflexivity|].
  intros [opcode H]. cbv in H. discriminate H.
Qed.

Lemma ConfigureClock_transmits_witness :
  is_byte 0x3 /\ is_byte 0x8 /\ 0x3 <= 0xF
  /\ log (snd (ConfigureClock Fake.okDisplay 0x3 0x8 Fake.boot))
     = [EvDcPin gpio_Low; EvSpiWrite [0x8D; 0x83]]
  /\ byte_or (byte_shl 0x8 4) 0x3
     = byte_or (byte_shl 0x8 4) (byte_and 0x3 0xF).
Proof.
  assert (H3 : is_byte 0x3) by (unfold is_byte; lia).
  assert (H8 : is_byte 0x8) by (unfold is_byte; lia).
  assert (Hlow : 0x3 <= 0xF) by lia.
  pose proof (ConfigureClock_transmits Fake.okDisplay Fake.boot 0x3 0x8 H3 H8)
    as [Hlog [_ [Hmask _]]].
  split; [exact H3|]. split; [exact H8|]. split; [exact Hlow|].
  split; [exact Hlog | exact (Hmask Hlow)].
Defined.

Lemma ConfigureClock_same_as_SetChargePump_witness :
  0x83 = byte_or (byte_shl 0x8 4) 0x3
  /\ ConfigureClock Fake.okDisplay 0x3 0x8 Fake.boot
     = SetChargePump Fake.okDisplay 0x83 Fake.boot.
Proof.
  split; [reflexivity|].
  apply (ConfigureClock_same_as_SetChargePump
           Fake.okDisplay Fake.boot 0x3 0x8 0x83 eq_refl).
Defined.

Lemma SetStartLine_transmits_witness :
  is_byte 5 /\ 5 <= 0x3F
  /\ log (snd (SetStartLine Fake.okDisplay 5 Fake.boot))
     = [EvDcPin gpio_Low; EvSpiWrite [0x45]]
  /\ byte_or 0x40 5 = byte_or 0x40 (byte_and 5 0x3F).
Proof.
  assert (H5 : is_byte 5) by (unfold is_byte; lia).
  assert (Hlow : 5 <= 0x3F) by lia.
  pose proof (SetStartLine_transmits Fake.okDisplay Fake.boot 5 H5)
    as [Hlog [_ [Hmask _]]].
  split; [exact H5|]. split; [exact Hlow|].
  split; [exact Hlog | exact (Hmask Hlow)].
Defined.

Lemma SetPrechargePeriod_transmits_witness :
  is_byte 2 /\ is_byte 15 /\ 2 <= 0xF
  /\ log (snd (SetPrechargePeriod Fake.okDisplay 2 15 Fake.boot))
     = [EvDcPin gpio_Low; EvSpiWrite [0xD9; 0xF2]]
  /\ byte_or (byte_shl 15 4) 2 = byte_or (byte_shl 15 4) (byte_and 2 0xF).
Proof.
  assert (H2 : is_byte 2) by (unfold is_byte; lia).
  assert (H15 : is_byte 15) by (unfold is_byte; lia).
  assert (Hlow : 2 <= 0xF) by lia.
  pose proof (SetPrechargePeriod_transmits Fake.okDisplay Fake.boot 2 15
                                           H2 H15)
    as [Hlog [_ [Hmask _]]].
  split; [exact H2|]. split; [exact H15|]. split; [exact Hlow|].
  split; [exact Hlog | exact (Hmask Hlow)].
Defined.

(** The reset line fails on its second set: two sets and one sleep are
    logged and the error is that of the second set.  On a line that works
    the whole pulse is logged. *)
Lemma Reset_sequence_witness :
  SetValue (resetPin (Fake.flakyResetDisplay (ext_error 5))) gpio_High
           (world Fake.boot) = (None, 1%nat)
  /\ SetValue (resetPin (Fake.flakyResetDisplay (ext_error 5))) gpio_Low
              (Fake.noElapse 3000 1%nat) = (Some (ext_error 5), 2%nat)
  /\ Reset Fake.noElapse (Fake.flakyResetDisplay (ext_error 5)) Fake.boot
     = (Some (ext_error 5),
        {| world := 2%nat;
           log := [EvResetPin gpio_High; EvSleep 3000;
                   EvResetPin gpio_Low] |})
  /\ Reset Fake.noElapse Fake.okDisplay Fake.boot
     = (None, {| world := 3%nat; log := reset_pulse |}).
Proof.
  split; [reflexivity|]. split; [reflexivity|]. split.
  - exact (proj1 (proj2 (Reset_sequence
                           Fake.noElapse
                           (Fake.flakyResetDisplay (ext_error 5)) Fake.boot))
                 1%nat (ext_error 5) 2%nat eq_refl eq_refl).
  - exact (proj1 (Reset_sequence Fake.noElapse Fake.okDisplay Fake.boot)
                 1%nat 2%nat None 3%nat eq_refl eq_refl eq_refl).
Defined.

(** The bus takes one byte of the two of [SetContrast(0x7F)] and reports
    no error: the call returns "Short write" after its single write. *)
Lemma short_write_detected_witness :
  Write (spi Fake.shortDisplay) [0x81; 0x7F]
        (snd (SetValue (dcPin Fake.shortDisplay) gpio_Low (world Fake.boot)))
    = ((1, None), 1%nat)
  /\ 1 < len [0x81; 0x7F]
  /\ fst (configure Fake.shortDisplay (CallSetContrast 0x7F) Fake.boot)
     = Some (fmt_Errorf "Short write")
  /\ written (log (snd (configure Fake.shortDisplay (CallSetContrast 0x7F)
                                  Fake.boot)))
     = [[0x81; 0x7F]].
Proof.
  destruct (short_write_detected Fake.shortDisplay (CallSetContrast 0x7F)
                                 Fake.boot) as [data [Hlog [Hw Hres]]].
  assert (Hdata : data = [0x81; 0x7F]).
  { cbv in Hlog. injection Hlog as Hd. symmetry. exact Hd. }
  subst data.
  split; [reflexivity|]. split; [reflexivity|]. split.
  - exact (proj1 (Hres 1 1%nat eq_refl) eq_refl).
  - exact Hw.
Defined.

(** ** Outcome of a configuration call *)

Lemma written_app (l1 l2 : list event) :
  written (l1 ++ l2) = written l1 ++ written l2.
Proof.
  induction l1 as [|[] l1 IH]; cbn [app written]; rewrite ?IH; reflexivity.
Qed.

Section Outcome.

Context {World : Type}.
Implicit Types (disp : display World) (m : machine World).

(** Every display is handed the bytes the recording fake was handed. *)
Lemma configure_sends_command_of disp (c : ConfigCall) :
  configure disp c = sendCommand disp (command_of c).
Proof. destruct c; reflexivity. Qed.

Lemma configure_run disp (c : ConfigCall) m n err w2 :
  Write (spi disp) (command_of c)
        (snd (SetValue (dcPin disp) gpio_Low (world m))) = ((n, err), w2) ->
  configure disp c m =
    (match err with
     | Some e => Some e
     | None => if n =? len (command_of c) then None
               else Some (fmt_Errorf "Short write")
     end,
     {| world := w2;
        log := log m ++ [EvDcPin gpio_Low; EvSpiWrite (command_of c)] |}).
Proof.
  intro H. rewrite configure_sends_command_of, sendCommand_run, H.
  reflexivity.
Qed.

(** X1.  A configuration call returns [nil] exactly when the bus write
    reported the full length of the command and no error.  What the
    select line answered plays no part. *)
Theorem configure_succeeds_iff disp (c : ConfigCall) m :
  fst (configure disp c m) = None
  <-> fst (Write (spi disp) (command_of c)
                 (snd (SetValue (dcPin disp) gpio_Low (world m))))
      = (len (command_of c), None).
Proof.
  destruct (Write (spi disp) (command_of c)
                  (snd (SetValue (dcPin disp) gpio_Low (world m))))
    as [[n err] w2] eqn:H.
  rewrite (configure_run _ _ _ _ _ _ H). cbn [fst].
  destruct err as [e|].
  - split; intro H'; discriminate H'.
  - destruct (Z.eqb_spec n (len (command_of c))) as [->|Hne].
    + split; reflexivity.
    + split; intro H'; [discriminate H'|].
      injection H' as H'. contradiction.
Qed.

(** X2.  When the bus write reports an error, a configuration call returns
    that very error, whatever the count reported with it: the count is
    not looked at, so a failed write is never turned into "Short write".
    The call has made its two calls and nothing else. *)
Theorem bus_error_returned_verbatim disp (c : ConfigCall) m n e w2 :
  Write (spi disp) (command_of c)
        (snd (SetValue (dcPin disp) gpio_Low (world m)))
    = ((n, Some e), w2) ->
  configure disp c m =
    (Some e,
     {| world := w2;
        log := log m ++ [EvDcPin gpio_Low; EvSpiWrite (command_of c)] |}).
Proof. intro H. rewrite (configure_run _ _ _ _ _ _ H). reflexivity. Qed.

(** X3.  A write that reports no error and a count different from the
    length of the command, above it as well as below, makes the
    configuration call return "Short write". *)
Theorem count_mismatch_is_short_write disp (c : ConfigCall) m n w2 :
  Write (spi disp) (command_of c)
        (snd (SetValue (dcPin disp) gpio_Low (world m)))
    = ((n, None), w2) ->
  n <> len (command_of c) ->
  fst (configure disp c m) = Some (fmt_Errorf "Short write").
Proof.
  intros H Hne. rewrite (configure_run _ _ _ _ _ _ H). cbn [fst].
  destruct (Z.eqb_spec n (len (command_of c))); [contradiction|reflexivity].
Qed.

(** X4.  An error returned by a configuration call is either the one the
    bus write reported or "Short write"; an error of the select line is
    never what is returned on its account. *)
Theorem configure_error_origin disp (c : ConfigCall) m e :
  fst (configure disp c m) = Some e ->
  snd (fst (Write (spi disp) (command_of c)
                  (snd (SetValue (dcPin disp) gpio_Low (world m)))))
    = Some e
  \/ (e = fmt_Errorf "Short write"
      /\ snd (fst (Write (spi disp) (command_of c)
                         (snd (SetValue (dcPin disp) gpio_Low (world m)))))
         = None).
Proof.
  destruct (Write (spi disp) (command_of c)
                  (snd (SetValue (dcPin disp) gpio_Low (world m))))
    as [[n err] w2] eqn:H.
  rewrite (configure_run _ _ _ _ _ _ H). cbn [fst snd].
  destruct err as [e'|].
  - intro H'. left. exact H'.
  - destruct (n =? len (command_of c)); intro H'; [discriminate H'|].
    injection H' as <-. right. split; reflexivity.
Qed.

End Outcome.

Lemma bus_error_returned_verbatim_witness :
  Write (spi (FakeBus.failingDisplay (ext_error 7)))
        (command_of (CallSetContrast 0x7F))
        (snd (SetValue (dcPin (FakeBus.failingDisplay (ext_error 7)))
                       gpio_Low (world Fake.boot)))
    = ((2, Some (ext_error 7)), 1%nat)
  /\ configure (FakeBus.failingDisplay (ext_error 7))
               (CallSetContrast 0x7F) Fake.boot
     = (Some (ext_error 7),
        {| world := 1%nat;
           log := [EvDcPin gpio_Low; EvSpiWrite [0x81; 0x7F]] |}).
Proof.
  split; [reflexivity|].
  exact (bus_error_returned_verbatim
           (FakeBus.failingDisplay (ext_error 7)) (CallSetContrast 0x7F)
           Fake.boot 2 (ext_error 7) 1%nat eq_refl).
Defined.

Lemma count_mismatch_is_short_write_witness :
  Write (spi FakeBus.greedyDisplay) (command_of CallTurnOn)
        (snd (SetValue (dcPin FakeBus.greedyDisplay) gpio_Low
                       (world Fake.boot)))
    = ((2, None), 1%nat)
  /\ 2 <> len (command_of CallTurnOn)
  /\ fst (configure FakeBus.greedyDisplay CallTurnOn Fake.boot)
     = Some (fmt_Errorf "Short write").
Proof.
  assert (Hne : 2 <> len (command_of CallTurnOn)) by (cbv; discriminate).
  split; [reflexivity|]. split; [exact Hne|].
  exact (count_mismatch_is_short_write
           FakeBus.greedyDisplay CallTurnOn Fake.boot 2 1%nat eq_refl Hne).
Defined.

Lemma configure_error_origin_witness :
  fst (configure Fake.shortDisplay (CallSetOffset 0) Fake.boot)
    = Some (fmt_Errorf "Short write")
  /\ (snd (fst (Write (spi Fake.shortDisplay) (command_of (CallSetOffset 0))
                      (snd (SetValue (dcPin Fake.shortDisplay) gpio_Low
                                     (world Fake.boot)))))
        = Some (fmt_Errorf "Short write")
      \/ (fmt_Errorf "Short write" = fmt_Errorf "Short write"
          /\ snd (fst (Write (spi Fake.shortDisplay)
                             (command_of (CallSetOffset 0))
                             (snd (SetValue (dcPin Fake.shortDisplay)
                                            gpio_Low (world Fake.boot)))))
             = None)).
Proof.
  split; [reflexivity|].
  exact (configure_error_origin Fake.shortDisplay (CallSetOffset 0)
                                Fake.boot (fmt_Errorf "Short write") eq_refl).
Defined.

(** ** What each kind of call leaves alone, and how calls add up *)

Section Frames.

Context {World : Type}.
Variable elapse : Z -> World -> World.
Implicit Types (disp : display World) (m : machine World).

(** X5.  A configuration call does not use the reset handle: with any
    other reset line in its place the call makes the same calls, leaves
    the same world and returns the same result. *)
Theorem configure_ignores_reset_handle disp (c : ConfigCall) m
        (r' : gpio_ValueSetter World) :
  configure {| spi := spi disp; dcPin := dcPin disp; resetPin := r' |} c m
  = configure disp c m.
Proof.
  rewrite !configure_sends_command_of, !sendCommand_run. reflexivity.
Qed.

(** X6.  [Reset] writes nothing to the bus and makes no call on the select
    line, and it does not use those two handles: with any other bus and
    select line in their place the run is the same. *)
Theorem Reset_leaves_bus_and_select_line disp m :
  (exists ext : list event,
      log (snd (Reset elapse disp m)) = log m ++ ext
      /\ written ext = []
      /\ forall v, ~ In (EvDcPin v) ext)
  /\ forall (s' : spi_WritableDevice World) (d' : gpio_ValueSetter World),
      Reset elapse {| spi := s'; dcPin := d'; resetPin := resetPin disp |} m
      = Reset elapse disp m.
Proof.
  split.
  - destruct (Reset_log elapse disp m) as [k Hk].
    exists (firstn k reset_pulse). split; [exact Hk|]. split.
    + do 6 (try destruct k as [|k]); reflexivity.
    + intros v Hin. apply In_firstn in Hin. cbn in Hin.
      repeat (destruct Hin as [Hin|Hin]; [discriminate Hin|]). exact Hin.
  - intros s' d'. reflexivity.
Qed.

(** X7.  [Reset] returns [nil] exactly when all three sets of the reset
    line returned [nil] (each made in the world the previous one left,
    after the sleep); the whole pulse has then been issued. *)
Theorem Reset_succeeds_iff disp m :
  fst (Reset elapse disp m) = None
  <-> exists w1 w2 w3,
      SetValue (resetPin disp) gpio_High (world m) = (None, w1)
      /\ SetValue (resetPin disp) gpio_Low (elapse 3000 w1) = (None, w2)
      /\ SetValue (resetPin disp) gpio_High (elapse 3000 w2) = (None, w3)
      /\ snd (Reset elapse disp m)
         = {| world := w3; log := log m ++ reset_pulse |}.
Proof.
  destruct (SetValue (resetPin disp) gpio_High (world m))
    as [[e1|] w1] eqn:H1.
  { rewrite (Reset_first_fails _ _ _ _ _ H1). split.
    - intro H. discriminate H.
    - intros (w1' & w2 & w3 & H & _). discriminate H. }
  destruct (SetValue (resetPin disp) gpio_Low (elapse 3000 w1))
    as [[e2|] w2] eqn:H2.
  { rewrite (Reset_second_fails _ _ _ _ _ _ H1 H2). split.
    - intro H. discriminate H.
    - intros (w1' & w2' & w3 & Ha & Hb & _).
      injection Ha as <-. rewrite H2 in Hb. discriminate Hb. }
  destruct (SetValue (resetPin disp) gpio_High (elapse 3000 w2))
    as [r3 w3] eqn:H3.
  rewrite (Reset_reaches_third _ _ _ _ _ _ _ H1 H2 H3). cbn [fst snd].
  split.
  - intros ->. exists w1, w2, w3. repeat split; assumption.
  - intros (w1' & w2' & w3' & Ha & Hb & Hc & _).
    injection Ha as <-. rewrite H2 in Hb. injection Hb as <-.
    rewrite H3 in Hc. injection Hc as -> _. reflexivity.
Qed.

(** X8.  An error returned by [Reset] is the error that the last set it
    made on the reset line reported, and [Reset] has done nothing after
    that set: the log ends with it and the world is as it left it. *)
Theorem Reset_error_origin disp m e :
  fst (Reset elapse disp m) = Some e ->
  exists (v : gpio_Value) (w : World) (ext : list event),
    log (snd (Reset elapse disp m)) = log m ++ ext ++ [EvResetPin v]
    /\ SetValue (resetPin disp) v w
       = (Some e, world (snd (Reset elapse disp m))).
Proof.
  destruct (SetValue (resetPin disp) gpio_High (world m))
    as [[e1|] w1] eqn:H1.
  { rewrite (Reset_first_fails _ _ _ _ _ H1). cbn [fst snd log world].
    intro H. injection H as <-.
    exists gpio_High, (world m), []. split; [reflexivity | exact H1]. }
  destruct (SetValue (resetPin disp) gpio_Low (elapse 3000 w1))
    as [[e2|] w2] eqn:H2.
  { rewrite (Reset_second_fails _ _ _ _ _ _ H1 H2). cbn [fst snd log world].
    intro H. injection H as <-.
    exists gpio_Low, (elapse 3000 w1), [EvResetPin gpio_High; EvSleep 3000].
    split; [reflexivity | exact H2]. }
  destruct (SetValue (resetPin disp) gpio_High (elapse 3000 w2))
    as [r3 w3] eqn:H3.
  rewrite (Reset_reaches_third _ _ _ _ _ _ _ H1 H2 H3).
  cbn [fst snd log world]. intros ->.
  exists gpio_High, (elapse 3000 w2),
    [EvResetPin gpio_High; EvSleep 3000; EvResetPin gpio_Low; EvSleep 3000].
  split; [reflexivity | exact H3].
Qed.

(** The bus writes of one call. *)
Lemma invoke_written disp (c : Call) m :
  written (log (snd (invoke elapse disp c m)))
  = written (log m) ++ map command_of (config_calls [c]).
Proof.
  destruct c as [|c]; cbn [invoke config_calls map].
  - destruct (Reset_log elapse disp m) as [k ->].
    rewrite written_app.
    do 6 (try destruct k as [|k]); reflexivity.
  - rewrite configure_sends_command_of, sendCommand_log, written_app.
    reflexivity.
Qed.

(** X9.  Over any sequence of calls made one after the other, the bus is
    handed exactly the commands of the configuration calls, one write per
    call and in the order of the calls, whatever the calls return: a reset
    adds no write, and a failed call neither stops the later writes nor is
    written again. *)
Theorem session_bus_traffic disp (cs : list Call) m :
  written (log (snd (session elapse disp cs m)))
  = written (log m) ++ map command_of (config_calls cs).
Proof.
  revert m. induction cs as [|c cs IH]; intro m.
  - cbn. rewrite app_nil_r. reflexivity.
  - cbn [session]. unfold bind at 1.
    pose proof (invoke_written disp c m) as Hc.
    destruct (invoke elapse disp c m) as [r m1]. cbn [snd] in Hc.
    unfold bind at 1. specialize (IH m1).
    destruct (session elapse disp cs m1) as [rs m2]. cbn [snd] in IH.
    cbn [ret snd]. rewrite IH, Hc, <- app_assoc. f_equal.
    destruct c; reflexivity.
Qed.

End Frames.

Lemma Reset_error_origin_witness :
  fst (Reset Fake.noElapse (Fake.flakyResetDisplay (ext_error 5)) Fake.boot)
    = Some (ext_error 5)
  /\ exists (v : gpio_Value) (w : nat) (ext : list event),
      log (snd (Reset Fake.noElapse (Fake.flakyResetDisplay (ext_error 5))
                      Fake.boot))
        = log Fake.boot ++ ext ++ [EvResetPin v]
      /\ SetValue (resetPin (Fake.flakyResetDisplay (ext_error 5))) v w
         = (Some (ext_error 5),
            world (snd (Reset Fake.noElapse
                              (Fake.flakyResetDisplay (ext_error 5))
                              Fake.boot))).
Proof.
  split; [reflexivity|].
  exact (Reset_error_origin Fake.noElapse
                            (Fake.flakyResetDisplay (ext_error 5))
                            Fake.boot (ext_error 5) eq_refl).
Defined.

(** ** The encoding table *)

(** The bytes of each command, as computed from the methods. *)
Lemma command_of_eq (c : ConfigCall) :
  command_of c =
  match c with
  | CallInvert => [0xA7]
  | CallUninvert => [0xA6]
  | CallTurnOn => [0xAF]
  | CallTurnOff => [0xAE]
  | CallSetChargePump setting => [0x8D; setting]
  | CallConfigureClock d f => [0x8D; byte_or (byte_shl f 4) d]
  | CallConfigureComPinsHardware p r => [0xDA; byte_or (byte_or 2 p) r]
  | CallSetMultiplexRatio ratio => [0xA8; ratio]
  | CallSetOffset offset => [0xD3; offset]
  | CallSetStartLine n => [byte_or 0x40 n]
  | CallSetMemoryAddressingMode mode => [0x20; mode]
  | CallSetSegmentRemap mode => [byte_or 0xA0 mode]
  | CallSetComOutputScanDirection direction => [direction]
  | CallSetContrast contrast => [0x81; contrast]
  | CallSetPrechargePeriod p1 p2 => [0xD9; byte_or (byte_shl p2 4) p1]
  | CallSetVcomhDeselectLevel level => [0xDB; level]
  | CallForceEntireDisplayOn => [0xA4]
  | CallStopForcingEntireDisplayOn => [0xA5]
  end.
Proof. destruct c; reflexivity. Qed.

Lemma is_byte_In_all_bytes (b : byte) : is_byte b -> In b all_bytes.
Proof.
  intros [H0 H1]. unfold all_bytes.
  rewrite <- (Z2Nat.id b) by exact H0.
  apply in_map, in_seq. lia.
Qed.

(** A boolean property checked on the 256 bytes holds of every byte. *)
Lemma forall_bytes (P : byte -> bool) :
  forallb P all_bytes = true -> forall b, is_byte b -> P b = true.
Proof.
  intros H b Hb. rewrite forallb_forall in H.
  apply H, is_byte_In_all_bytes, Hb.
Qed.

Lemma const_is_byte (b : byte) : (0 <=? b) && (b <? 256) = true -> is_byte b.
Proof.
  intro H. apply andb_prop in H. destruct H as [H0 H1].
  unfold is_byte. split; [apply Z.leb_le, H0 | apply Z.ltb_lt, H1].
Qed.

(** X10.  When the arguments of a configuration call are bytes, every
    byte of its command is a byte: no encoder overflows, the shifted
    nibble being truncated.  And a command is one or two bytes long, never
    empty. *)
Theorem command_is_one_or_two_bytes (c : ConfigCall) :
  byte_args c ->
  Forall is_byte (command_of c)
  /\ (len (command_of c) = 1 \/ len (command_of c) = 2).
Proof.
  intro Hargs. rewrite command_of_eq. split.
  - destruct c; cbn [byte_args] in Hargs;
      repeat match goal with
             | H : _ /\ _ |- _ => destruct H
             | |- Forall _ _ => constructor
             | |- is_byte (byte_or _ _) => apply byte_or_is_byte
             | |- is_byte (byte_shl _ _) => apply byte_shl_is_byte
             | |- is_byte _ => assumption
             | |- is_byte _ => apply const_is_byte; reflexivity
             end.
  - destruct c; cbv [len List.length Z.of_nat Pos.of_succ_nat Pos.succ];
      auto.
Qed.

(** X11.  Among the two-byte commands the first byte tells the method,
    but for 0x8D: two configuration calls whose two-byte commands start
    with the same byte are calls of the same method, or that byte is
    0x8D (which [SetChargePump] and [ConfigureClock] both use). *)
Theorem opcode_identifies_method (c1 c2 : ConfigCall) (o a1 a2 : byte) :
  command_of c1 = [o; a1] ->
  command_of c2 = [o; a2] ->
  method_of c1 = method_of c2 \/ o = 0x8D.
Proof.
  rewrite !command_of_eq. intros H1 H2.
  destruct c1; try discriminate H1; destruct c2; try discriminate H2;
    injection H1; injection H2; intros;
    first [left; reflexivity | right; congruence].
Qed.

Lemma singleton_eq {A : Type} (x y : A) : [x] = [y] -> x = y.
Proof. intro H. congruence. Qed.

(** The start-line command stays in 0x40..0x7F for a six-bit argument. *)
Lemma start_line_range (n : byte) :
  0 <= n <= 0x3F -> 0x40 <= byte_or 0x40 n <= 0x7F.
Proof.
  intros [H0 H1].
  assert (Hb : is_byte n) by (unfold is_byte; lia).
  pose proof (forall_bytes
                (fun n => negb (n <=? 0x3F)
                          || ((0x40 <=? byte_or 0x40 n)
                              && (byte_or 0x40 n <=? 0x7F)))
                eq_refl n Hb) as H.
  cbv beta in H. apply orb_prop in H. destruct H as [H|H].
  - apply negb_true_iff, Z.leb_gt in H. lia.
  - apply andb_prop in H. destruct H as [Ha Hb'].
    split; [apply Z.leb_le, Ha | apply Z.leb_le, Hb'].
Qed.

(** X12.  Among the one-byte commands the byte tells the method, as long
    as the argument fits: a declared constant for [SetSegmentRemap] and
    [SetComOutputScanDirection], at most 0x3F for [SetStartLine]. *)
Theorem single_byte_identifies_method (c1 c2 : ConfigCall) (b : byte) :
  fitting_args c1 -> fitting_args c2 ->
  command_of c1 = [b] ->
  command_of c2 = [b] ->
  method_of c1 = method_of c2.
Proof.
  rewrite !command_of_eq. intros F1 F2 H1 H2.
  destruct c1; try discriminate H1; destruct c2; try discriminate H2;
    try reflexivity; exfalso; cbn [fitting_args] in F1, F2;
    apply singleton_eq in H1; apply singleton_eq in H2; subst b;
    repeat match goal with
           | F : _ \/ _ |- _ => destruct F as [F|F]; subst
           | F : 0 <= _ <= 0x3F |- _ => apply start_line_range in F
           end;
    first
      [ match goal with
        | F : _ <= byte_or 0x40 ?n <= _, H : byte_or 0x40 ?n = _ |- _ =>
            rewrite H in F; destruct F as [Fa Fb]
        | F : _ <= byte_or 0x40 ?n <= _, H : _ = byte_or 0x40 ?n |- _ =>
            rewrite <- H in F; destruct F as [Fa Fb]
        end;
        vm_compute in Fa, Fb;
        first [exact (Fa eq_refl) | exact (Fb eq_refl)]
      | match goal with
        | H : _ = _ |- _ => vm_compute in H; discriminate H
        end ].
Qed.

(** ** Bit packing *)

(** The packed byte of [ConfigureClock] and [SetPrechargePeriod], nibble by
    nibble, checked on every pair of bytes. *)
Lemma packed_nibbles (lo hi : byte) :
  is_byte lo -> is_byte hi ->
  Z.shiftr (byte_or (byte_shl hi 4) lo) 4
    = Z.lor (Z.land hi 0xF) (Z.shiftr lo 4)
  /\ Z.land (byte_or (byte_shl hi 4) lo) 0xF = Z.land lo 0xF
  /\ byte_shl (byte_and hi 0xF) 4 = byte_shl hi 4.
Proof.
  intros Hlo Hhi.
  pose (P := fun lo hi : byte =>
               (Z.shiftr (byte_or (byte_shl hi 4) lo) 4
                =? Z.lor (Z.land hi 0xF) (Z.shiftr lo 4))
               && (Z.land (byte_or (byte_shl hi 4) lo) 0xF =? Z.land lo 0xF)
               && (byte_shl (byte_and hi 0xF) 4 =? byte_shl hi 4)).
  assert (Hall : forallb (fun lo => forallb (P lo) all_bytes) all_bytes
                 = true) by (vm_compute; reflexivity).
  pose proof (forall_bytes _ (forall_bytes _ Hall lo Hlo) hi Hhi) as H.
  unfold P in H. apply andb_prop in H. destruct H as [H H3].
  apply andb_prop in H. destruct H as [H1 H2].
  repeat split; apply Z.eqb_eq; assumption.
Qed.

(** X13.  [ConfigureClock(d, f)] and [SetPrechargePeriod(d, f)] send the
    same second byte [p].  Its low nibble is the low nibble of [d]; its
    high nibble is the low nibble of [f] OR-ed with the high nibble of
    [d]; the high nibble of [f] is lost, so [f & 0xF] gives the same
    command.  When both arguments are at most 0xF they can be read back
    from [p]. *)
Theorem nibble_packing (d f : byte) :
  is_byte d -> is_byte f ->
  exists p : byte,
    command_of (CallConfigureClock d f) = [0x8D; p]
    /\ command_of (CallSetPrechargePeriod d f) = [0xD9; p]
    /\ Z.land p 0xF = Z.land d 0xF
    /\ Z.shiftr p 4 = Z.lor (Z.land f 0xF) (Z.shiftr d 4)
    /\ command_of (CallConfigureClock d (byte_and f 0xF)) = [0x8D; p]
    /\ command_of (CallSetPrechargePeriod d (byte_and f 0xF)) = [0xD9; p]
    /\ (d <= 0xF -> f <= 0xF -> Z.land p 0xF = d /\ Z.shiftr p 4 = f).
Proof.
  intros Hd Hf.
  destruct (packed_nibbles d f Hd Hf) as (Hhi & Hlo & Hcut).
  exists (byte_or (byte_shl f 4) d).
  rewrite !command_of_eq, Hcut.
  repeat (split; [first [reflexivity | assumption]|]).
  intros Hd4 Hf4. rewrite Hlo, Hhi.
  change 0xF with (Z.ones 4). rewrite !Z.land_ones by lia.
  unfold is_byte in Hd, Hf.
  rewrite (Z.mod_small d) by (change (2 ^ 4) with 16; lia).
  rewrite (Z.mod_small f) by (change (2 ^ 4) with 16; lia).
  split; [reflexivity|].
  rewrite Z.shiftr_div_pow2 by lia.
  rewrite (Z.div_small d) by (change (2 ^ 4) with 16; lia).
  apply Z.lor_0_r.
Qed.

(** X14.  The byte [b] that [SetStartLine(n)] sends has bit 6 set and the
    low six bits of [n]; bit 6 of [n] makes no difference, so [n | 0x40]
    gives the same command; and [b] lies in 0x40..0x7F exactly when
    [n <= 0x7F]. *)
Theorem start_line_bits (n : byte) :
  is_byte n ->
  exists b : byte,
    command_of (CallSetStartLine n) = [b]
    /\ is_byte b
    /\ Z.testbit b 6 = true
    /\ Z.land b 0x3F = Z.land n 0x3F
    /\ command_of (CallSetStartLine (byte_or n 0x40)) = [b]
    /\ (0x40 <= b <= 0x7F <-> n <= 0x7F).
Proof.
  intro Hn. exists (byte_or 0x40 n). rewrite !command_of_eq.
  pose proof (forall_bytes
                (fun n => Z.testbit (byte_or 0x40 n) 6
                          && (Z.land (byte_or 0x40 n) 0x3F =? Z.land n 0x3F)
                          && (byte_or 0x40 (byte_or n 0x40)
                              =? byte_or 0x40 n)
                          && Bool.eqb ((0x40 <=? byte_or 0x40 n)
                                       && (byte_or 0x40 n <=? 0x7F))
                                      (n <=? 0x7F))
                eq_refl n Hn) as H.
  cbv beta in H.
  apply andb_prop in H. destruct H as [H H4].
  apply andb_prop in H. destruct H as [H H3].
  apply andb_prop in H. destruct H as [H1 H2].
  apply Z.eqb_eq in H2, H3. apply Bool.eqb_prop in H4.
  split; [reflexivity|].
  split; [apply byte_or_is_byte; [unfold is_byte; lia | exact Hn]|].
  split; [exact H1|]. split; [exact H2|].
  split; [rewrite H3; reflexivity|].
  split.
  - intros [Ha Hb]. apply Z.leb_le. rewrite <- H4.
    apply andb_true_intro. split; apply Z.leb_le; assumption.
  - intro Hle. apply Z.leb_le in Hle. rewrite <- H4 in Hle.
    apply andb_prop in Hle. destruct Hle as [Ha Hb].
    split; apply Z.leb_le; assumption.
Qed.

(** X15.  The second byte [b] of [ConfigureComPinsHardware(p, r)] always
    has bit 1 set.  For the declared constants of the two settings, [b] is
    [2 + p + r] (0x02, 0x12, 0x22 or 0x32) and both settings can be read
    back from it, [p] as [b & 16] and [r] as [b & 32]. *)
Theorem com_pins_packing (p : ComPinConfig) (r : LeftRightRemap) :
  is_byte p -> is_byte r ->
  exists b : byte,
    command_of (CallConfigureComPinsHardware p r) = [0xDA; b]
    /\ is_byte b
    /\ Z.testbit b 1 = true
    /\ ((p = SequentialComPinConfig \/ p = AlternativeComPinConfig) ->
        (r = DisableComLeftRightRemap \/ r = EnableComLeftRightRemap) ->
        b = 2 + p + r /\ Z.land b 16 = p /\ Z.land b 32 = r).
Proof.
  intros Hp Hr. exists (byte_or (byte_or 2 p) r). rewrite command_of_eq.
  split; [reflexivity|]. split.
  - repeat apply byte_or_is_byte; try assumption. unfold is_byte; lia.
  - split.
    + unfold byte_or. rewrite !Z.lor_spec. reflexivity.
    + intros [-> | ->] [-> | ->]; repeat split.
Qed.

(** ** The earlier revision *)

(** X16.  The earlier revision of the file behaves as the current one
    under other names: its [NewDisplay], [Reset], [InvertDisplay],
    [NormalDisplay], [DisplayOff] and [DisplayOn] make the same calls,
    leave the same world and return the same results as [NewDisplay],
    [Reset], [Invert], [Uninvert], [TurnOff] and [TurnOn]. *)
Theorem Rev0_same_behaviour {World : Type} (elapse : Z -> World -> World)
        (disp : display World) (m : machine World) :
  (forall s d r, Rev0.NewDisplay s d r m = NewDisplay s d r m)
  /\ Rev0.Reset elapse disp m = Reset elapse disp m
  /\ Rev0.InvertDisplay disp m = configure disp CallInvert m
  /\ Rev0.NormalDisplay disp m = configure disp CallUninvert m
  /\ Rev0.DisplayOff disp m = configure disp CallTurnOff m
  /\ Rev0.DisplayOn disp m = configure disp CallTurnOn m.
Proof. repeat split. Qed.

(** ** Instances of the packing and table theorems *)

Lemma command_is_one_or_two_bytes_witness :
  byte_args (CallConfigureClock 0xFF 0xFF)
  /\ Forall is_byte (command_of (CallConfigureClock 0xFF 0xFF))
  /\ (len (command_of (CallConfigureClock 0xFF 0xFF)) = 1
      \/ len (command_of (CallConfigureClock 0xFF 0xFF)) = 2).
Proof.
  assert (Hff : is_byte 0xFF) by (unfold is_byte; lia).
  assert (Hargs : byte_args (CallConfigureClock 0xFF 0xFF))
    by (split; exact Hff).
  split; [exact Hargs|].
  exact (command_is_one_or_two_bytes (CallConfigureClock 0xFF 0xFF) Hargs).
Defined.

Lemma opcode_identifies_method_witness :
  command_of (CallSetChargePump ChargePumpEnabled) = [0x8D; 0x10]
  /\ command_of (CallConfigureClock 0x0 0x1) = [0x8D; 0x10]
  /\ (method_of (CallSetChargePump ChargePumpEnabled)
      = method_of (CallConfigureClock 0x0 0x1)
      \/ 0x8D = 0x8D).
Proof.
  split; [reflexivity|]. split; [reflexivity|].
  exact (opcode_identifies_method
           (CallSetChargePump ChargePumpEnabled) (CallConfigureClock 0x0 0x1)
           0x8D 0x10 0x10 eq_refl eq_refl).
Defined.

Lemma single_byte_identifies_method_witness :
  fitting_args (CallSetStartLine 0x3F)
  /\ fitting_args (CallSetStartLine 0x3F)
  /\ command_of (CallSetStartLine 0x3F) = [0x7F]
  /\ method_of (CallSetStartLine 0x3F) = method_of (CallSetStartLine 0x3F).
Proof.
  assert (Hfit : fitting_args (CallSetStartLine 0x3F))
    by (cbn [fitting_args]; lia).
  split; [exact Hfit|]. split; [exact Hfit|]. split; [reflexivity|].
  exact (single_byte_identifies_method
           (CallSetStartLine 0x3F) (CallSetStartLine 0x3F) 0x7F
           Hfit Hfit eq_refl eq_refl).
Defined.

Lemma nibble_packing_witness :
  is_byte 0x13 /\ is_byte 0x28
  /\ exists p : byte,
      command_of (CallConfigureClock 0x13 0x28) = [0x8D; p]
      /\ command_of (CallSetPrechargePeriod 0x13 0x28) = [0xD9; p]
      /\ Z.land p 0xF = Z.land 0x13 0xF
      /\ Z.shiftr p 4 = Z.lor (Z.land 0x28 0xF) (Z.shiftr 0x13 4)
      /\ command_of (CallConfigureClock 0x13 (byte_and 0x28 0xF))
         = [0x8D; p]
      /\ command_of (CallSetPrechargePeriod 0x13 (byte_and 0x28 0xF))
         = [0xD9; p]
      /\ (0x13 <= 0xF -> 0x28 <= 0xF ->
          Z.land p 0xF = 0x13 /\ Z.shiftr p 4 = 0x28).
Proof.
  assert (Hd : is_byte 0x13) by (unfold is_byte; lia).
  assert (Hf : is_byte 0x28) by (unfold is_byte; lia).
  split; [exact Hd|]. split; [exact Hf|].
  exact (nibble_packing 0x13 0x28 Hd Hf).
Defined.

Lemma start_line_bits_witness :
  is_byte 0x85
  /\ exists b : byte,
      command_of (CallSetStartLine 0x85) = [b]
      /\ is_byte b
      /\ Z.testbit b 6 = true
      /\ Z.land b 0x3F = Z.land 0x85 0x3F
      /\ command_of (CallSetStartLine (byte_or 0x85 0x40)) = [b]
      /\ (0x40 <= b <= 0x7F <-> 0x85 <= 0x7F).
Proof.
  assert (Hn : is_byte 0x85) by (unfold is_byte; lia).
  split; [exact Hn|].
  exact (start_line_bits 0x85 Hn).
Defined.

Lemma com_pins_packing_witness :
  is_byte AlternativeComPinConfig /\ is_byte EnableComLeftRightRemap
  /\ exists b : byte,
      command_of (CallConfigureComPinsHardware AlternativeComPinConfig
                                               EnableComLeftRightRemap)
        = [0xDA; b]
      /\ b = 0x32 /\ Z.land b 16 = AlternativeComPinConfig
      /\ Z.land b 32 = EnableComLeftRightRemap.
Proof.
  assert (Hp : is_byte AlternativeComPinConfig)
    by (unfold is_byte, AlternativeComPinConfig; lia).
  assert (Hr : is_byte EnableComLeftRightRemap)
    by (unfold is_byte, EnableComLeftRightRemap; lia).
  split; [exact Hp|]. split; [exact Hr|].
  destruct (com_pins_packing AlternativeComPinConfig EnableComLeftRightRemap
                             Hp Hr) as (b & Hcmd & _ & _ & Hdec).
  destruct (Hdec (or_intror eq_refl) (or_intror eq_refl))
    as (Hb & Hp' & Hr').
  exists b. split; [exact Hcmd|]. split; [exact Hb|].
  split; [exact Hp' | exact Hr'].
Defined.
